(** * The FastMCP argument sanitizer (src/helpers/fastmcp_patch.py)

    A shallow embedding of the runtime patch that replaces
    [FunctionTool.run] by [_run_with_arg_sanitizer], and the properties the
    specification states about it.

    Python objects are modelled as follows.
    - A payload is a [PyVal]; a [dict] is the list of its items in insertion
      order (Python dicts iterate in insertion order), and a well-formed dict
      has no two items with the same key ([dict_wf]).  Keys are strings: the
      payload is typed [Dict[str, Any]] and arrives as a JSON object.
    - A [tuple] of names is a [list string]; a [set] of names is a
      [gset string].
    - The tool instance, the emitted log records and the number of calls of
      [inspect.signature] form the heap that the statements of the function
      read and write; an exception ends the computation ([Raise]).
    - [await _original_run(...)] is the call of the original entry point:
      the wrapper does nothing between the await and its own return, so
      the coroutine's suspension points are the original's. *)

From stdpp Require Import base option list sorting gmap strings.

(** ** Python values *)

#[warnings="-register-all"] Inductive PyVal : Type :=
| PyNone
| PyBool (b : bool)
| PyInt (z : Z)
| PyStr (s : string)
| PyList (elts : list PyVal)
| PyDict (items : list (string * PyVal)).

(** [isinstance(arguments, dict)] *)
Definition isinstance_dict (arguments : PyVal) : bool :=
  match arguments with
  | PyDict _ => true
  | _ => false
  end.

Module Dict.

Section ops.
Context {V : Type}.

(** [d.keys()], in iteration order. *)
Definition keys (d : list (string * V)) : list string := d.*1.

(** [len(d)] *)
Definition len (d : list (string * V)) : nat := length d.

(** No key occurs twice: what every Python dict satisfies. *)
Definition dict_wf (d : list (string * V)) : Prop := NoDup (keys d).

(** [d.get(k)]: the value stored under [k], if any. *)
Fixpoint get (d : list (string * V)) (k : string) : option V :=
  match d with
  | [] => None
  | (k', v) :: d' => if String.eqb k' k then Some v else get d' k
  end.

(** [d[k] = v]: an existing key keeps its position and takes the new
    value, a new key goes to the end. *)
Fixpoint setitem (d : list (string * V)) (k : string) (v : V)
  : list (string * V) :=
  match d with
  | [] => [(k, v)]
  | (k', v') :: d' =>
      if String.eqb k' k then (k', v) :: d'
      else (k', v') :: setitem d' k v
  end.
End ops.

End Dict.

(** [k in t] for a tuple [t] of strings: a left-to-right scan with [==]. *)
Fixpoint tuple_contains (t : list string) (k : string) : bool :=
  match t with
  | [] => false
  | x :: t' => if String.eqb x k then true else tuple_contains t' k
  end.

(** Line 47: [{k: v for k, v in arguments.items() if k in allowed}].
    The comprehension walks the items in order and stores each retained
    one into a dict that starts empty. *)
Definition sanitized_from {V} (acc : list (string * V))
    (items : list (string * V)) (allowed : list string) : list (string * V) :=
  fold_left
    (fun acc kv => if tuple_contains allowed kv.1
                   then Dict.setitem acc kv.1 kv.2 else acc)
    items acc.

Definition sanitized {V} (items : list (string * V)) (allowed : list string)
  : list (string * V) :=
  sanitized_from [] items allowed.

(** Line 50: [sorted(set(arguments.keys()) - set(allowed))].  A Python set
    has no order of its own ([elements]); [sorted] orders strings by code
    point, which is the byte order of their UTF-8 encoding. *)
Definition removed {V} (items : list (string * V)) (allowed : list string)
  : list string :=
  merge_sort String.le
    (elements ((list_to_set (Dict.keys items) : gset string)
               ∖ list_to_set allowed)).

(** ** Exceptions, the heap and the computations over it *)

Record PyExc : Type := mkExc { exc_type : string; exc_msg : string }.

Inductive Result (A : Type) : Type :=
| Ok (a : A)
| Raise (e : PyExc).
Arguments Ok {A} a.
Arguments Raise {A} e.

(** The wrapped function as the patch observes it: its [__name__]
    attribute, when it has one, and what [inspect.signature] makes of it:
    the parameter names in declaration order, or the exception it raises
    ([ValueError] or [TypeError]) for a callable without a discoverable
    signature. *)
Record Callable : Type := mkCallable {
  fn_name : option string;
  fn_signature : PyExc + list string
}.

(** A [FunctionTool] instance: the attributes the patch reads and the one
    it adds.  An attribute the instance does not have is [None]. *)
Record FunctionTool : Type := mkTool {
  fn : Callable;
  name : option string;
  _allowed_parameter_names : option (list string)
}.

(** One call of [log.debug(fmt, tool_name, removed)] on the logger of
    line 21. *)
Record LogRecord : Type := mkLog {
  log_logger : string;
  log_level : string;
  log_fmt : string;
  log_tool_name : string;
  log_removed : list string
}.

Record Heap : Type := mkHeap {
  self : FunctionTool;
  log : list LogRecord;
  signature_calls : nat
}.

Definition M (A : Type) : Type := Heap -> Result A * Heap.

#[global] Instance M_ret : MRet M := fun A a h => (Ok a, h).
#[global] Instance M_bind : MBind M := fun A B f m h =>
  match m h with
  | (Ok a, h') => f a h'
  | (Raise e, h') => (Raise e, h')
  end.

Definition raise {A} (e : PyExc) : M A := fun h => (Raise e, h).

(** [hasattr(self, "_allowed_parameter_names")] *)
Definition hasattr_allowed : M bool :=
  fun h => (Ok (bool_decide (is_Some (_allowed_parameter_names (self h)))), h).

(** [getattr(self, "_allowed_parameter_names")] *)
Definition getattr_allowed : M (list string) :=
  fun h =>
    match _allowed_parameter_names (self h) with
    | Some allowed => (Ok allowed, h)
    | None =>
        (Raise (mkExc "AttributeError"
                  "'FunctionTool' object has no attribute '_allowed_parameter_names'"),
         h)
    end.

(** [self._allowed_parameter_names = names] *)
Definition setattr_allowed (names : list string) : M unit :=
  fun h =>
    (Ok tt,
     mkHeap (mkTool (fn (self h)) (name (self h)) (Some names))
            (log h) (signature_calls h)).

(** [tuple(inspect.signature(self.fn).parameters.keys())]; every call is
    counted on the heap. *)
Definition inspect_signature : M (list string) :=
  fun h =>
    let h' := mkHeap (self h) (log h) (S (signature_calls h)) in
    match fn_signature (fn (self h)) with
    | inr parameters => (Ok parameters, h')
    | inl e => (Raise e, h')
    end.

(** [getattr(self, "name", getattr(self.fn, "__name__", "<unknown>"))] *)
Definition tool_name (t : FunctionTool) : string :=
  default (default "<unknown>" (fn_name (fn t))) (name t).

(** [log.debug("Dropped unsupported fields for tool '%s': %s", ...)] *)
Definition log_debug (fmt : string) (tool : string) (keys : list string)
  : M unit :=
  fun h =>
    (Ok tt, mkHeap (self h) (log h ++ [mkLog "zammad_mcp.arg_sanitizer" "DEBUG" fmt tool keys])
                   (signature_calls h)).

Definition dropped_fmt : string :=
  "Dropped unsupported fields for tool '%s': %s".

(** ** The patch *)

(** Lines 42-46: build and cache the whitelist of valid parameter names,
    then read it back. *)
Definition resolve_allowed : M (list string) :=
  cached ← hasattr_allowed;
  _ ← (if negb cached
       then names ← inspect_signature; setattr_allowed names
       else mret tt);
  getattr_allowed.

Section wrapper.

(** The implementation of [FunctionTool.run] that was in place when the
    module was loaded (line 24).  It receives [self] through the heap. *)
Variable _original_run : PyVal -> M PyVal.

(** Lines 30-54. *)
Definition _run_with_arg_sanitizer (arguments : PyVal) : M PyVal :=
  match arguments with
  | PyDict items =>
      allowed ← resolve_allowed;
      let sanitized := sanitized items allowed in
      _ ← (if negb (Dict.len sanitized =? Dict.len items)%nat
           then
             let removed := removed items allowed in
             t ← (fun h => (Ok (tool_name (self h)), h));
             log_debug dropped_fmt t removed
           else mret tt);
      _original_run (PyDict sanitized)
  | _ => _original_run arguments
  end.

End wrapper.

(** The Payload Sanitizer of the wrapper read as one pure function of the
    payload and the allowlist: lines 38-39 for a payload that is not a
    dict, lines 47 and 50 for a dict.  The second component lists the
    dropped keys. *)
Definition sanitize (payload : PyVal) (allowed : list string)
  : PyVal * list string :=
  match payload with
  | PyDict items => (PyDict (sanitized items allowed), removed items allowed)
  | _ => (payload, [])
  end.

(** A payload whose top level, when it is a dict, is a well-formed dict. *)
Definition payload_wf (payload : PyVal) : Prop :=
  match payload with
  | PyDict items => Dict.dict_wf items
  | _ => True
  end.

(** The heap after the diagnostic of lines 49-52, which is emitted
    exactly when [len(sanitized) != len(arguments)]. *)
Definition with_diagnostic {V} (items : list (string * V))
    (allowed : list string) (h : Heap) : Heap :=
  if negb (Dict.len (sanitized items allowed) =? Dict.len items)%nat
  then mkHeap (self h)
         (log h ++ [mkLog "zammad_mcp.arg_sanitizer" "DEBUG" dropped_fmt
                      (tool_name (self h)) (removed items allowed)])
         (signature_calls h)
  else h.

(** [n] successive runs of lines 42-46 on the same registration: the
    results in call order and the heap they leave. *)
Fixpoint resolve_calls (n : nat) (h : Heap)
  : list (Result (list string)) * Heap :=
  match n with
  | 0 => ([], h)
  | S n' =>
      let '(r, h1) := resolve_allowed h in
      let '(rs, h2) := resolve_calls n' h1 in
      (r :: rs, h2)
  end.

Definition heap_after (n : nat) (h : Heap) : Heap := (resolve_calls n h).2.

(** The cache slot agrees with the callable: what a registration
    satisfies as long as only the patch writes the slot. *)
Definition cache_consistent (h : Heap) : Prop :=
  forall allowed,
    _allowed_parameter_names (self h) = Some allowed ->
    fn_signature (fn (self h)) = inr allowed.

(** ** Installing the patch (lines 16-27 and 57-58) *)

(** What [FunctionTool.run] can be bound to: the framework's own method,
    or the wrapper of a module instance together with the [_original_run]
    that instance captured on line 24.  Every run of the body has a module
    namespace of its own, as under [import]; a reload, which runs the body
    again in the namespace of the wrapper already installed, is not
    modelled. *)
Inductive RunImpl : Type :=
| FrameworkRun
| ArgSanitizer (_original_run : RunImpl).

(** The interpreter state the module body reads and writes:
    [sys.modules], whether [fastmcp.tools.tool.FunctionTool] can be
    imported, and the class attribute [FunctionTool.run]. *)
Record Interp : Type := mkInterp {
  sys_modules : gset string;
  fastmcp_available : bool;
  FunctionTool_run : option RunImpl
}.

(** One execution of the module body. *)
Definition module_body (st : Interp) : Result Interp :=
  if negb (fastmcp_available st)
  then Raise (mkExc "RuntimeError"
         "Failed to import FunctionTool from fastmcp; API may have changed.")
  else
    match FunctionTool_run st with
    | None =>
        Raise (mkExc "RuntimeError"
          "fastmcp.tools.tool.FunctionTool.run was not found; incompatible FastMCP version?")
    | Some _original_run =>
        Ok (mkInterp (sys_modules st) (fastmcp_available st)
              (Some (ArgSanitizer _original_run)))
    end.

(** [import <modname>]: Python runs the body of a module only when the
    module is not in [sys.modules] yet; a module whose body raises is not
    kept there. *)
Definition import_module (modname : string) (st : Interp) : Result Interp :=
  if decide (modname ∈ sys_modules st) then Ok st
  else
    match module_body st with
    | Ok st' =>
        Ok (mkInterp ({[modname]} ∪ sys_modules st') (fastmcp_available st')
              (FunctionTool_run st'))
    | Raise e => Raise e
    end.

Section dispatch.

(** The framework's own [FunctionTool.run]. *)
Variable framework_run : PyVal -> M PyVal.

Fixpoint call_run (impl : RunImpl) : PyVal -> M PyVal :=
  match impl with
  | FrameworkRun => framework_run
  | ArgSanitizer original => _run_with_arg_sanitizer (call_run original)
  end.

(** [await tool.run(arguments)] in interpreter state [st]. *)
Definition tool_run (st : Interp) (arguments : PyVal) : M PyVal :=
  match FunctionTool_run st with
  | Some impl => call_run impl arguments
  | None =>
      raise (mkExc "AttributeError"
               "'FunctionTool' object has no attribute 'run'")
  end.

End dispatch.

(** Successive invocations of the wrapper on one registration, one per
    payload; each invocation starts on the heap the previous one left,
    whether it returned or raised. *)
Fixpoint run_calls (_original_run : PyVal -> M PyVal)
    (payloads : list PyVal) (h : Heap) : Heap :=
  match payloads with
  | [] => h
  | arguments :: rest =>
      run_calls _original_run rest
        (_run_with_arg_sanitizer _original_run arguments h).2
  end.

(** ** Concrete registrations, payloads and entry points *)

(** [def add_note(ticket_id, note): ...] *)
Definition add_note_fn : Callable :=
  mkCallable (Some "add_note") (inr ["ticket_id"; "note"]).

(** A native callable for which [inspect.signature] raises. *)
Definition builtin_fn : Callable :=
  mkCallable (Some "getpid")
    (inl (mkExc "ValueError" "no signature found for builtin <built-in function getpid>")).

Definition add_note_tool : FunctionTool :=
  mkTool add_note_fn (Some "zabbix_add_note") None.

Definition builtin_tool : FunctionTool :=
  mkTool builtin_fn (Some "zabbix_getpid") None.

Definition fresh_heap (t : FunctionTool) : Heap := mkHeap t [] 0.

Definition call_with_extra_key : list (string * PyVal) :=
  [("ticket_id", PyInt 42); ("note", PyStr "hi"); ("toolCallId", PyStr "abc123")].

(** An entry point that returns the payload it receives. *)
Definition echo_run : PyVal -> M PyVal := fun arguments h => (Ok arguments, h).

(** An entry point that raises a domain error. *)
Definition failing_run : PyVal -> M PyVal :=
  fun _ h => (Raise (mkExc "ZabbixAPIError" "Session terminated, re-login, please."), h).

(** An interpreter in which fastmcp is installed and nothing of the patch
    has been imported. *)
Definition pristine : Interp := mkInterp ∅ true (Some FrameworkRun).

(** * Properties *)

(** ** The dict operations *)

Lemma tuple_contains_spec (t : list string) (k : string) :
  tuple_contains t k = true <-> k ∈ t.
Proof.
  induction t as [|x t IH]; simpl.
  - split; [discriminate | intros H; inversion H].
  - destruct (String.eqb_spec x k) as [->|Hne].
    + split; [intros _; left | reflexivity].
    + rewrite IH. split; [by right |].
      intros H. apply elem_of_cons in H as [Heq | H]; [congruence | done].
Qed.

Lemma tuple_contains_decide (t : list string) (k : string) :
  tuple_contains t k = bool_decide (k ∈ t).
Proof.
  destruct (tuple_contains t k) eqn:E.
  - symmetry. apply bool_decide_eq_true. by apply tuple_contains_spec.
  - symmetry. apply bool_decide_eq_false. intros H.
    apply tuple_contains_spec in H. congruence.
Qed.

Section dict_facts.
Context {V : Type}.
Implicit Types (d items acc : list (string * V)) (k : string) (v : V).
Implicit Types (allowed : list string).

Lemma setitem_fresh d k v :
  k ∉ Dict.keys d -> Dict.setitem d k v = d ++ [(k, v)].
Proof.
  induction d as [|[k' v'] d IH]; simpl; [done |].
  intros Hk. apply not_elem_of_cons in Hk as [Hne Hk].
  destruct (String.eqb_spec k' k) as [->|_]; [done |].
  by rewrite IH.
Qed.

Lemma get_Some d k v :
  Dict.dict_wf d -> (Dict.get d k = Some v <-> (k, v) ∈ d).
Proof.
  unfold Dict.dict_wf, Dict.keys.
  induction d as [|[k' v'] d IH]; simpl; intros Hwf.
  - split; [discriminate | intros H; inversion H].
  - apply NoDup_cons in Hwf as [Hk' Hwf].
    destruct (String.eqb_spec k' k) as [->|Hne].
    + split.
      * intros [= ->]. left.
      * intros H. apply elem_of_cons in H as [[= ->] | H]; [done |].
        exfalso. apply Hk'. apply list_elem_of_fmap. by exists (k, v).
    + rewrite (IH Hwf). split; [by right |].
      intros H. apply elem_of_cons in H as [[= -> ->] | H]; [congruence | done].
Qed.

Lemma get_None d k : Dict.get d k = None <-> k ∉ Dict.keys d.
Proof.
  unfold Dict.keys.
  induction d as [|[k' v'] d IH]; simpl.
  - split; [intros _ H; inversion H | done].
  - destruct (String.eqb_spec k' k) as [->|Hne].
    + split; [discriminate | intros H; exfalso; apply H; left].
    + rewrite IH, not_elem_of_cons. split; [by split | by intros [_ H]].
Qed.

(** The comprehension on a well-formed dict is a filter of its items. *)
Lemma sanitized_from_filter items : forall acc allowed,
  NoDup (Dict.keys acc ++ Dict.keys items) ->
  sanitized_from acc items allowed
  = acc ++ filter (fun kv => kv.1 ∈ allowed) items.
Proof.
  unfold sanitized_from, Dict.keys.
  induction items as [|[k v] items IH]; intros acc allowed Hnd; simpl.
  - by rewrite app_nil_r.
  - rewrite tuple_contains_decide. simpl in Hnd.
    apply NoDup_app in Hnd as (Hacc & Hdisj & Hitems).
    apply NoDup_cons in Hitems as [Hk Hitems].
    assert (k ∉ acc.*1) as Hkacc by (intros H; apply (Hdisj k H); left).
    case_bool_decide as Hin.
    + rewrite filter_cons_True by done.
      rewrite setitem_fresh by done.
      rewrite IH; [by rewrite <- app_assoc |].
      rewrite fmap_app. simpl. rewrite <- app_assoc. simpl.
      apply NoDup_app. split_and!; [done | | by apply NoDup_cons].
      intros x Hx. apply Hdisj in Hx. done.
    + rewrite filter_cons_False by done.
      apply IH. apply NoDup_app. split_and!; [done | | done].
      intros x Hx Hx'. apply (Hdisj x Hx). by right.
Qed.

Lemma sanitized_filter items allowed :
  Dict.dict_wf items ->
  sanitized items allowed = filter (fun kv => kv.1 ∈ allowed) items.
Proof.
  intros Hwf. unfold sanitized. by rewrite sanitized_from_filter.
Qed.

Lemma keys_filter items allowed :
  Dict.keys (filter (fun kv => kv.1 ∈ allowed) items)
  = filter (fun k => k ∈ allowed) (Dict.keys items).
Proof.
  unfold Dict.keys. induction items as [|[k v] items IH]; [done |].
  rewrite fmap_cons. simpl.
  destruct (decide (k ∈ allowed)) as [Hin|Hnin].
  - rewrite !filter_cons_True by done. by rewrite fmap_cons, IH.
  - by rewrite !filter_cons_False by done.
Qed.

Lemma sanitized_wf items allowed :
  Dict.dict_wf items -> Dict.dict_wf (sanitized items allowed).
Proof.
  intros Hwf. rewrite sanitized_filter by done.
  unfold Dict.dict_wf. rewrite keys_filter. by apply NoDup_filter.
Qed.

End dict_facts.

(** ** The dropped keys *)

Section removed_facts.
Context {V : Type}.
Implicit Types (items : list (string * V)) (allowed : list string).

Lemma removed_Permutation items allowed :
  removed items allowed
  ≡ₚ elements ((list_to_set (Dict.keys items) : gset string)
               ∖ list_to_set allowed).
Proof. apply merge_sort_Permutation. Qed.

Lemma elem_of_removed items allowed (k : string) :
  k ∈ removed items allowed <-> k ∈ Dict.keys items /\ k ∉ allowed.
Proof.
  rewrite removed_Permutation, elem_of_elements, elem_of_difference.
  by rewrite !elem_of_list_to_set.
Qed.

Lemma removed_NoDup items allowed : NoDup (removed items allowed).
Proof. rewrite removed_Permutation. apply NoDup_elements. Qed.

Lemma removed_sorted items allowed :
  StronglySorted String.le (removed items allowed).
Proof. apply StronglySorted_merge_sort; apply _. Qed.

Lemma removed_nil items allowed :
  removed items allowed = [] <-> forall k, k ∈ Dict.keys items -> k ∈ allowed.
Proof.
  split.
  - intros Hnil k Hk. destruct (decide (k ∈ allowed)) as [|Hn]; [done |].
    assert (k ∈ removed items allowed) as Hin by by apply elem_of_removed.
    rewrite Hnil in Hin. inversion Hin.
  - intros Hall. destruct (removed items allowed) as [|k l] eqn:E; [done |].
    assert (k ∈ removed items allowed) as Hin by (rewrite E; left).
    apply elem_of_removed in Hin as [Hk Hn]. by apply Hall in Hk.
Qed.

(** The test of line 49 detects exactly the calls that drop a key. *)
Lemma len_differs_iff_removed items allowed :
  Dict.dict_wf items ->
  negb (Dict.len (sanitized items allowed) =? Dict.len items)%nat = true
  <-> removed items allowed <> [].
Proof.
  intros Hwf. rewrite sanitized_filter by done. unfold Dict.len.
  rewrite negb_true_iff, Nat.eqb_neq, removed_nil. split.
  - intros Hlen Hall. apply Hlen. clear Hlen Hwf.
    induction items as [|[k v] items IH]; [done |].
    rewrite filter_cons_True by (simpl; apply Hall; left).
    simpl. f_equal. apply IH. intros k' Hk'. apply Hall. by right.
  - intros Hex Hlen. apply Hex. intros k Hk.
    destruct (decide (k ∈ allowed)) as [|Hn]; [done |]. exfalso.
    apply list_elem_of_fmap in Hk as ([k' v] & -> & Hkv).
    pose proof (length_filter_lt (fun kv : string * V => kv.1 ∈ allowed)
                  items (k', v) Hkv Hn) as Hlt.
    lia.
Qed.

Lemma removed_sanitized items allowed :
  Dict.dict_wf items -> removed (sanitized items allowed) allowed = [].
Proof.
  intros Hwf. apply removed_nil. intros k.
  rewrite sanitized_filter, keys_filter by done.
  rewrite list_elem_of_filter. by intros [? _].
Qed.

Lemma sanitized_sanitized items allowed :
  Dict.dict_wf items ->
  sanitized (sanitized items allowed) allowed = sanitized items allowed.
Proof.
  intros Hwf. rewrite (sanitized_filter (sanitized items allowed))
    by by apply sanitized_wf.
  rewrite sanitized_filter by done.
  rewrite list_filter_filter. apply list_filter_iff. tauto.
Qed.

End removed_facts.

(** ** The allowlist resolver (lines 42-46) *)

Lemma resolve_cached h allowed :
  _allowed_parameter_names (self h) = Some allowed ->
  resolve_allowed h = (Ok allowed, h).
Proof.
  intros Hc. unfold resolve_allowed, mbind, M_bind, hasattr_allowed,
    getattr_allowed, mret, M_ret.
  rewrite Hc. rewrite bool_decide_eq_true_2 by eauto. simpl. by rewrite Hc.
Qed.

Lemma resolve_fresh_ok h parameters :
  _allowed_parameter_names (self h) = None ->
  fn_signature (fn (self h)) = inr parameters ->
  resolve_allowed h
  = (Ok parameters,
     mkHeap (mkTool (fn (self h)) (name (self h)) (Some parameters))
            (log h) (S (signature_calls h))).
Proof.
  intros Hc Hsig. unfold resolve_allowed, mbind, M_bind, hasattr_allowed,
    getattr_allowed, inspect_signature, setattr_allowed, mret, M_ret.
  rewrite Hc. rewrite bool_decide_eq_false_2 by (intros [? ?]; done).
  simpl. by rewrite Hsig.
Qed.

Lemma resolve_fresh_raise h e :
  _allowed_parameter_names (self h) = None ->
  fn_signature (fn (self h)) = inl e ->
  resolve_allowed h
  = (Raise e, mkHeap (self h) (log h) (S (signature_calls h))).
Proof.
  intros Hc Hsig. unfold resolve_allowed, mbind, M_bind, hasattr_allowed,
    getattr_allowed, inspect_signature, setattr_allowed, mret, M_ret.
  rewrite Hc. rewrite bool_decide_eq_false_2 by (intros [? ?]; done).
  simpl. by rewrite Hsig.
Qed.

(** The three ways a call of the resolver can go. *)
Lemma resolve_cases h :
  (exists allowed,
      _allowed_parameter_names (self h) = Some allowed /\
      resolve_allowed h = (Ok allowed, h)) \/
  (exists parameters,
      _allowed_parameter_names (self h) = None /\
      fn_signature (fn (self h)) = inr parameters /\
      resolve_allowed h
      = (Ok parameters,
         mkHeap (mkTool (fn (self h)) (name (self h)) (Some parameters))
                (log h) (S (signature_calls h)))) \/
  (exists e,
      _allowed_parameter_names (self h) = None /\
      fn_signature (fn (self h)) = inl e /\
      resolve_allowed h
      = (Raise e, mkHeap (self h) (log h) (S (signature_calls h)))).
Proof.
  destruct (_allowed_parameter_names (self h)) as [allowed|] eqn:Hc.
  - left. exists allowed. split; [done | by apply resolve_cached].
  - right. destruct (fn_signature (fn (self h))) as [e|parameters] eqn:Hsig.
    + right. exists e. split_and!; [done.. | by apply resolve_fresh_raise].
    + left. exists parameters.
      split_and!; [done.. | by apply resolve_fresh_ok].
Qed.

(** A successful resolver call leaves the allowlist in the cache slot and
    touches neither the other attributes nor the log. *)
Lemma resolve_ok_heap h allowed h1 :
  resolve_allowed h = (Ok allowed, h1) ->
  _allowed_parameter_names (self h1) = Some allowed /\
  fn (self h1) = fn (self h) /\ name (self h1) = name (self h) /\
  log h1 = log h.
Proof.
  intros Hr.
  destruct (resolve_cases h) as [(a & Hc & E) | [(ps & Hc & Hs & E) | (e & Hc & Hs & E)]];
    rewrite E in Hr; simplify_eq; simpl; done.
Qed.

(** ** The wrapper (lines 30-54) *)

Section wrapper_facts.
Variable _original_run : PyVal -> M PyVal.

Lemma run_not_dict arguments h :
  isinstance_dict arguments = false ->
  _run_with_arg_sanitizer _original_run arguments h = _original_run arguments h.
Proof. by destruct arguments. Qed.

Lemma run_dict_ok items h allowed h1 :
  resolve_allowed h = (Ok allowed, h1) ->
  _run_with_arg_sanitizer _original_run (PyDict items) h
  = _original_run (PyDict (sanitized items allowed))
      (with_diagnostic items allowed h1).
Proof.
  intros Hr. unfold _run_with_arg_sanitizer, with_diagnostic.
  unfold mbind at 1. unfold M_bind at 1. rewrite Hr.
  unfold mbind, M_bind, mret, M_ret, log_debug.
  by destruct (negb _).
Qed.

Lemma run_dict_raise items h e h1 :
  resolve_allowed h = (Raise e, h1) ->
  _run_with_arg_sanitizer _original_run (PyDict items) h = (Raise e, h1).
Proof.
  intros Hr. unfold _run_with_arg_sanitizer.
  unfold mbind at 1. unfold M_bind at 1. by rewrite Hr.
Qed.

End wrapper_facts.

(** ** The payload sanitizer *)

Lemma get_filter {V} (items : list (string * V)) (allowed : list string)
    (k : string) :
  Dict.get (filter (fun kv => kv.1 ∈ allowed) items) k
  = if decide (k ∈ allowed) then Dict.get items k else None.
Proof.
  induction items as [|[k' v] items IH]; simpl.
  - by destruct (decide _).
  - destruct (decide (k' ∈ allowed)) as [Hin|Hnin].
    + rewrite filter_cons_True by done. simpl.
      destruct (String.eqb_spec k' k) as [->|Hne]; [|done].
      by rewrite decide_True.
    + rewrite filter_cons_False by done. rewrite IH.
      destruct (decide (k ∈ allowed)) as [Hk|]; [|done].
      destruct (String.eqb_spec k' k) as [->|Hne]; done.
Qed.

Ltac solve_wf :=
  unfold payload_wf, Dict.dict_wf, Dict.keys; simpl;
  apply (bool_decide_unpack _); vm_compute; exact I.

(** C1.  For a dict payload and any allowlist, the sanitized payload is a
    dict whose keys are exactly the keys of the payload that are in the
    allowlist, and every retained key carries the value it had in the
    payload; a key outside the payload or outside the allowlist is absent
    (no defaulting). *)
Theorem sanitize_keeps_exactly_allowed
    (items : list (string * PyVal)) (allowed : list string)
    (Hwf : Dict.dict_wf items) :
  exists s,
    (sanitize (PyDict items) allowed).1 = PyDict s /\
    Dict.dict_wf s /\
    (forall k, k ∈ Dict.keys s <-> k ∈ Dict.keys items /\ k ∈ allowed) /\
    (forall k, Dict.get s k
               = if decide (k ∈ allowed) then Dict.get items k else None) /\
    (forall (_original_run : PyVal -> M PyVal) (h h1 : Heap),
        resolve_allowed h = (Ok allowed, h1) ->
        _run_with_arg_sanitizer _original_run (PyDict items) h
        = _original_run (PyDict s) (with_diagnostic items allowed h1)).
Proof.
  exists (sanitized items allowed). split_and!.
  - done.
  - by apply sanitized_wf.
  - intros k. rewrite sanitized_filter, keys_filter by done.
    rewrite list_elem_of_filter. tauto.
  - intros k. rewrite sanitized_filter by done. apply get_filter.
  - intros orig h h1 Hr. by apply run_dict_ok.
Qed.

Lemma sanitize_keeps_exactly_allowed_witness :
  Dict.dict_wf call_with_extra_key /\
  exists s,
    (sanitize (PyDict call_with_extra_key) ["ticket_id"; "note"]).1 = PyDict s /\
    Dict.dict_wf s /\
    (forall k, k ∈ Dict.keys s
               <-> k ∈ Dict.keys call_with_extra_key /\ k ∈ ["ticket_id"; "note"]) /\
    (forall k, Dict.get s k
               = if decide (k ∈ ["ticket_id"; "note"])
                 then Dict.get call_with_extra_key k else None) /\
    (forall (_original_run : PyVal -> M PyVal) (h h1 : Heap),
        resolve_allowed h = (Ok ["ticket_id"; "note"], h1) ->
        _run_with_arg_sanitizer _original_run (PyDict call_with_extra_key) h
        = _original_run (PyDict s)
            (with_diagnostic call_with_extra_key ["ticket_id"; "note"] h1)).
Proof.
  assert (Dict.dict_wf call_with_extra_key) as Hwf by solve_wf.
  split; [exact Hwf |].
  exact (sanitize_keeps_exactly_allowed call_with_extra_key
           ["ticket_id"; "note"] Hwf).
Defined.

(** C9.  The retained keys keep the relative order they had in the
    payload: the key sequence of the sanitized dict is the key sequence of
    the payload with the keys outside the allowlist struck out, and the
    sanitized items are a subsequence of the payload's items. *)
Theorem sanitized_preserves_order
    (items : list (string * PyVal)) (allowed : list string)
    (Hwf : Dict.dict_wf items) :
  Dict.keys (sanitized items allowed)
  = filter (fun k => k ∈ allowed) (Dict.keys items) /\
  sanitized items allowed `sublist_of` items.
Proof.
  rewrite sanitized_filter by done. split.
  - apply keys_filter.
  - apply sublist_filter.
Qed.

Lemma sanitized_preserves_order_witness :
  Dict.dict_wf call_with_extra_key /\
  Dict.keys (sanitized call_with_extra_key ["note"; "ticket_id"])
  = filter (fun k => k ∈ ["note"; "ticket_id"]) (Dict.keys call_with_extra_key) /\
  sanitized call_with_extra_key ["note"; "ticket_id"]
    `sublist_of` call_with_extra_key.
Proof.
  assert (Dict.dict_wf call_with_extra_key) as Hwf by solve_wf.
  split; [exact Hwf |].
  exact (sanitized_preserves_order call_with_extra_key
           ["note"; "ticket_id"] Hwf).
Defined.

(** C5.  Sanitizing is idempotent: sanitizing an already sanitized payload
    with the same allowlist returns it as it is and drops no key. *)
Theorem sanitize_idempotent (payload : PyVal) (allowed : list string)
    (Hwf : payload_wf payload) :
  sanitize (sanitize payload allowed).1 allowed
  = ((sanitize payload allowed).1, []).
Proof.
  destruct payload as [| | | | |items]; try reflexivity.
  simpl in *.
  by rewrite sanitized_sanitized, removed_sanitized.
Qed.

Lemma sanitize_idempotent_witness :
  payload_wf (PyDict call_with_extra_key) /\
  sanitize (sanitize (PyDict call_with_extra_key) ["ticket_id"; "note"]).1
    ["ticket_id"; "note"]
  = ((sanitize (PyDict call_with_extra_key) ["ticket_id"; "note"]).1, []).
Proof.
  assert (payload_wf (PyDict call_with_extra_key)) as Hwf by solve_wf.
  split; [exact Hwf |].
  exact (sanitize_idempotent (PyDict call_with_extra_key)
           ["ticket_id"; "note"] Hwf).
Defined.

(** C2.  For a payload that is not a dict, sanitizing is the identity
    with no dropped key, whatever the allowlist, and the wrapper hands the
    payload to the original entry point as it is, on the heap it was
    called on (so no diagnostic is logged). *)
Theorem non_mapping_passes_unchanged
    (_original_run : PyVal -> M PyVal) (payload : PyVal)
    (allowed : list string) (h : Heap)
    (Hshape : isinstance_dict payload = false) :
  sanitize payload allowed = (payload, []) /\
  _run_with_arg_sanitizer _original_run payload h = _original_run payload h.
Proof.
  split; [by destruct payload | by apply run_not_dict].
Qed.

Lemma non_mapping_passes_unchanged_witness :
  isinstance_dict (PyStr "not-a-mapping") = false /\
  sanitize (PyStr "not-a-mapping") ["x"] = (PyStr "not-a-mapping", []) /\
  _run_with_arg_sanitizer echo_run (PyStr "not-a-mapping")
    (fresh_heap add_note_tool)
  = echo_run (PyStr "not-a-mapping") (fresh_heap add_note_tool).
Proof.
  split; [reflexivity |].
  exact (non_mapping_passes_unchanged echo_run (PyStr "not-a-mapping")
           ["x"] (fresh_heap add_note_tool) eq_refl).
Defined.

(** ** Results and failures of the original entry point *)

(** C4.  Whatever the payload and the registration, the wrapper either
    ends in one call of the original entry point, whose outcome (the value
    it returns or the exception it raises, and the heap it leaves) is the
    outcome of the wrapper, or the allowlist resolver raises before the
    original entry point is reached.  The payload and the heap handed over
    do not depend on the entry point, and nothing is done to its
    outcome. *)
Theorem original_outcome_passes_through (arguments : PyVal) (h : Heap) :
  (exists forwarded h_entry,
      forall _original_run : PyVal -> M PyVal,
        _run_with_arg_sanitizer _original_run arguments h
        = _original_run forwarded h_entry) \/
  (exists e h1,
      isinstance_dict arguments = true /\
      resolve_allowed h = (Raise e, h1) /\
      forall _original_run : PyVal -> M PyVal,
        _run_with_arg_sanitizer _original_run arguments h = (Raise e, h1)).
Proof.
  destruct (isinstance_dict arguments) eqn:Hshape.
  - destruct arguments as [| | | | |items]; try discriminate.
    destruct (resolve_allowed h) as [[allowed|e] h1] eqn:Hr.
    + left. exists (PyDict (sanitized items allowed)),
        (with_diagnostic items allowed h1).
      intros orig. by apply run_dict_ok.
    + right. exists e, h1. split_and!; [done.. |].
      intros orig. by apply run_dict_raise.
  - left. exists arguments, h. intros orig. by apply run_not_dict.
Qed.

(** ** Calls with a payload that is not a dict *)

(** C10.  A call whose payload is not a dict enters the original entry
    point on the heap it was called on: the cache slot is as it was and
    [inspect.signature] has not been called, whether or not the callable
    can be introspected; the outcome is the one of the original entry
    point. *)
Theorem non_mapping_skips_resolver (arguments : PyVal) (h : Heap)
    (Hshape : isinstance_dict arguments = false) :
  exists h_entry,
    (forall _original_run : PyVal -> M PyVal,
        _run_with_arg_sanitizer _original_run arguments h
        = _original_run arguments h_entry) /\
    _allowed_parameter_names (self h_entry)
    = _allowed_parameter_names (self h) /\
    signature_calls h_entry = signature_calls h.
Proof.
  exists h. split_and!; [| done..].
  intros orig. by apply run_not_dict.
Qed.

Lemma non_mapping_skips_resolver_witness :
  isinstance_dict (PyList [PyInt 1]) = false /\
  fn_signature (fn builtin_tool)
  = inl (mkExc "ValueError" "no signature found for builtin <built-in function getpid>") /\
  exists h_entry,
    (forall _original_run : PyVal -> M PyVal,
        _run_with_arg_sanitizer _original_run (PyList [PyInt 1])
          (fresh_heap builtin_tool)
        = _original_run (PyList [PyInt 1]) h_entry) /\
    _allowed_parameter_names (self h_entry)
    = _allowed_parameter_names (self (fresh_heap builtin_tool)) /\
    signature_calls h_entry = signature_calls (fresh_heap builtin_tool).
Proof.
  split; [reflexivity |]. split; [reflexivity |].
  exact (non_mapping_skips_resolver (PyList [PyInt 1])
           (fresh_heap builtin_tool) eq_refl).
Defined.

(** ** A callable that cannot be introspected *)

(** C7.  When the cache slot is empty and [inspect.signature] raises for
    the callable, the resolver raises that exception after that one call of
    [inspect.signature]: there is no second attempt, the cache slot stays
    empty and nothing is logged.  The failure is fatal for the invocation:
    the wrapper called with a dict raises the same exception and does not
    reach the original entry point. *)
Theorem resolver_failure_is_fatal (h : Heap) (e : PyExc)
    (Hfresh : _allowed_parameter_names (self h) = None)
    (Hopaque : fn_signature (fn (self h)) = inl e) :
  resolve_allowed h
  = (Raise e, mkHeap (self h) (log h) (S (signature_calls h))) /\
  forall (_original_run : PyVal -> M PyVal) (items : list (string * PyVal)),
    _run_with_arg_sanitizer _original_run (PyDict items) h
    = (Raise e, mkHeap (self h) (log h) (S (signature_calls h))).
Proof.
  pose proof (resolve_fresh_raise h e Hfresh Hopaque) as Hr.
  split; [done |]. intros orig items. by apply run_dict_raise.
Qed.

Lemma resolver_failure_is_fatal_witness :
  let e := mkExc "ValueError" "no signature found for builtin <built-in function getpid>" in
  let h := fresh_heap builtin_tool in
  resolve_allowed h = (Raise e, mkHeap builtin_tool [] 1) /\
  forall (_original_run : PyVal -> M PyVal) (items : list (string * PyVal)),
    _run_with_arg_sanitizer _original_run (PyDict items) h
    = (Raise e, mkHeap builtin_tool [] 1).
Proof.
  exact (resolver_failure_is_fatal (fresh_heap builtin_tool)
           (mkExc "ValueError" "no signature found for builtin <built-in function getpid>")
           eq_refl eq_refl).
Defined.

(** ** The diagnostic for dropped keys (lines 49-52) *)

Lemma tool_name_of_name (t : FunctionTool) (n : string) :
  name t = Some n -> tool_name t = n.
Proof. unfold tool_name. by intros ->. Qed.

(** C6.  For a dict payload the dropped keys are the keys of the payload
    that are not in the allowlist, without repetition and in ascending
    order.  When there is none, the wrapper logs nothing; when there is
    one, it logs one DEBUG record that carries the name of the tool and
    the sorted dropped keys.  In both cases it goes on to call the
    original entry point with the sanitized payload: an unknown key raises
    nothing. *)
Theorem dropped_keys_are_logged_not_raised
    (_original_run : PyVal -> M PyVal) (items : list (string * PyVal))
    (allowed : list string) (h h1 : Heap)
    (Hwf : Dict.dict_wf items)
    (Hres : resolve_allowed h = (Ok allowed, h1)) :
  (forall k, k ∈ removed items allowed
             <-> k ∈ Dict.keys items /\ k ∉ allowed) /\
  NoDup (removed items allowed) /\
  StronglySorted String.le (removed items allowed) /\
  _run_with_arg_sanitizer _original_run (PyDict items) h
  = _original_run (PyDict (sanitized items allowed))
      (if decide (removed items allowed = []) then h1
       else mkHeap (self h1)
              (log h ++ [mkLog "zammad_mcp.arg_sanitizer" "DEBUG"
                           "Dropped unsupported fields for tool '%s': %s"
                           (tool_name (self h)) (removed items allowed)])
              (signature_calls h1)) /\
  (forall n, name (self h) = Some n -> tool_name (self h) = n).
Proof.
  split_and!.
  - intros k. apply elem_of_removed.
  - apply removed_NoDup.
  - apply removed_sorted.
  - rewrite (run_dict_ok _ _ _ _ _ Hres). f_equal.
    apply resolve_ok_heap in Hres as (_ & Hfn & Hname & Hlog).
    unfold with_diagnostic.
    destruct (negb _) eqn:Hlen.
    + apply len_differs_iff_removed in Hlen; [|done].
      rewrite decide_False by done.
      unfold tool_name, dropped_fmt. by rewrite Hfn, Hname, Hlog.
    + rewrite decide_True; [done |].
      destruct (decide (removed items allowed = [])) as [|Hne]; [done |].
      apply len_differs_iff_removed in Hne; [congruence | done].
  - intros n. apply tool_name_of_name.
Qed.

Lemma dropped_keys_are_logged_not_raised_witness :
  Dict.dict_wf call_with_extra_key /\
  resolve_allowed (fresh_heap add_note_tool)
  = (Ok ["ticket_id"; "note"],
     mkHeap (mkTool add_note_fn (Some "zabbix_add_note")
               (Some ["ticket_id"; "note"])) [] 1) /\
  removed call_with_extra_key ["ticket_id"; "note"] = ["toolCallId"] /\
  _run_with_arg_sanitizer echo_run (PyDict call_with_extra_key)
    (fresh_heap add_note_tool)
  = (Ok (PyDict [("ticket_id", PyInt 42); ("note", PyStr "hi")]),
     mkHeap (mkTool add_note_fn (Some "zabbix_add_note")
               (Some ["ticket_id"; "note"]))
       [mkLog "zammad_mcp.arg_sanitizer" "DEBUG"
          "Dropped unsupported fields for tool '%s': %s"
          "zabbix_add_note" ["toolCallId"]]
       1).
Proof.
  assert (Dict.dict_wf call_with_extra_key) as Hwf by solve_wf.
  assert (resolve_allowed (fresh_heap add_note_tool)
          = (Ok ["ticket_id"; "note"],
             mkHeap (mkTool add_note_fn (Some "zabbix_add_note")
                       (Some ["ticket_id"; "note"])) [] 1)) as Hres
    by reflexivity.
  assert (removed call_with_extra_key ["ticket_id"; "note"] = ["toolCallId"])
    as Hrem by (vm_compute; reflexivity).
  split; [exact Hwf |]. split; [exact Hres |]. split; [exact Hrem |].
  pose proof (dropped_keys_are_logged_not_raised echo_run
                call_with_extra_key ["ticket_id"; "note"]
                (fresh_heap add_note_tool) _ Hwf Hres) as (_ & _ & _ & Hrun & _).
  rewrite Hrun, Hrem. reflexivity.
Defined.

(** ** Repeated resolver calls *)

Lemma resolve_calls_cached (n : nat) (h : Heap) (allowed : list string) :
  _allowed_parameter_names (self h) = Some allowed ->
  resolve_calls n h = (replicate n (Ok allowed), h).
Proof.
  intros Hc. induction n as [|n IH]; simpl; [done |].
  by rewrite (resolve_cached h allowed Hc), IH.
Qed.

Lemma heap_after_S (n : nat) (h : Heap) :
  heap_after (S n) h = heap_after n (resolve_allowed h).2.
Proof.
  unfold heap_after. simpl.
  destruct (resolve_allowed h) as [r h1]. simpl.
  by destruct (resolve_calls n h1).
Qed.

Lemma heap_after_add (m k : nat) (h : Heap) :
  heap_after (m + k) h = heap_after k (heap_after m h).
Proof.
  revert h. induction m as [|m IH]; intros h; [done |].
  by rewrite Nat.add_succ_l, !heap_after_S, IH.
Qed.

(** Once written, the cache slot keeps its value through every later
    resolver call, for any callable. *)
Lemma cache_write_once (m m' : nat) (h : Heap) (allowed : list string) :
  m <= m' ->
  _allowed_parameter_names (self (heap_after m h)) = Some allowed ->
  _allowed_parameter_names (self (heap_after m' h)) = Some allowed.
Proof.
  intros Hle Hc. replace m' with (m + (m' - m)) by lia.
  rewrite heap_after_add. unfold heap_after at 1.
  by rewrite (resolve_calls_cached _ _ _ Hc).
Qed.

(** The resolver keeps the cache slot consistent with the callable; a
    registration that was never resolved is consistent. *)
Lemma cache_consistent_fresh (h : Heap) :
  _allowed_parameter_names (self h) = None -> cache_consistent h.
Proof. intros Hc allowed. rewrite Hc. discriminate. Qed.

Lemma cache_consistent_resolve (h : Heap) :
  cache_consistent h -> cache_consistent (resolve_allowed h).2.
Proof.
  intros Hcons.
  destruct (resolve_cases h)
    as [(a & Hc & E) | [(ps & Hc & Hs & E) | (e & Hc & Hs & E)]];
    rewrite E; simpl; [done | | ].
  - intros allowed. simpl. by intros [= <-].
  - intros allowed. simpl. rewrite Hc. discriminate.
Qed.

Lemma cache_consistent_heap_after (n : nat) (h : Heap) :
  cache_consistent h -> cache_consistent (heap_after n h).
Proof.
  revert h. induction n as [|n IH]; intros h Hcons; [done |].
  rewrite heap_after_S. by apply IH, cache_consistent_resolve.
Qed.

(** C3, as amended.  For a registration whose callable can be
    introspected and whose cache slot, if written, holds the callable's
    parameter names: each of [n >= 1] successive resolver calls returns
    the parameter names of the signature in declaration order,
    [inspect.signature] is called at most once over all of them (once if
    the slot was empty, not at all otherwise), and a cache slot that has
    been written keeps its value through every later call. *)
Theorem resolve_idempotent_when_introspectable
    (h : Heap) (parameters : list string) (n : nat)
    (Hsig : fn_signature (fn (self h)) = inr parameters)
    (Hcons : cache_consistent h)
    (Hn : 1 <= n) :
  (resolve_calls n h).1 = replicate n (Ok parameters) /\
  signature_calls (heap_after n h)
  = signature_calls h
    + (if _allowed_parameter_names (self h) is Some _ then 0 else 1) /\
  signature_calls (heap_after n h) <= S (signature_calls h) /\
  _allowed_parameter_names (self (heap_after n h)) = Some parameters /\
  (forall m m' allowed,
      m <= m' ->
      _allowed_parameter_names (self (heap_after m h)) = Some allowed ->
      _allowed_parameter_names (self (heap_after m' h)) = Some allowed).
Proof.
  assert ((resolve_calls n h).1 = replicate n (Ok parameters) /\
          signature_calls (heap_after n h)
          = signature_calls h
            + (if _allowed_parameter_names (self h) is Some _ then 0 else 1) /\
          _allowed_parameter_names (self (heap_after n h)) = Some parameters)
    as (Hrs & Hcalls & Hcache).
  { destruct (_allowed_parameter_names (self h)) as [allowed|] eqn:Hc.
    - assert (allowed = parameters) as ->
        by (specialize (Hcons allowed Hc); congruence).
      unfold heap_after. rewrite (resolve_calls_cached n h parameters Hc).
      simpl. split_and!; [done | lia | done].
    - destruct n as [|n]; [lia |].
      unfold heap_after. simpl.
      rewrite (resolve_fresh_ok h parameters Hc Hsig).
      rewrite (resolve_calls_cached n _ parameters) by reflexivity.
      simpl. split_and!; [done | lia | done]. }
  split_and!; [done | done | | done |].
  - rewrite Hcalls. destruct (_allowed_parameter_names (self h)); lia.
  - intros m m' allowed. apply cache_write_once.
Qed.

Lemma resolve_idempotent_when_introspectable_witness :
  let h := fresh_heap add_note_tool in
  (resolve_calls 3 h).1
  = replicate 3 (Ok ["ticket_id"; "note"]) /\
  signature_calls (heap_after 3 h)
  = signature_calls h + (if _allowed_parameter_names (self h) is Some _ then 0 else 1) /\
  signature_calls (heap_after 3 h) <= S (signature_calls h) /\
  _allowed_parameter_names (self (heap_after 3 h))
  = Some ["ticket_id"; "note"] /\
  (forall m m' allowed,
      m <= m' ->
      _allowed_parameter_names (self (heap_after m h)) = Some allowed ->
      _allowed_parameter_names (self (heap_after m' h)) = Some allowed).
Proof.
  refine (resolve_idempotent_when_introspectable (fresh_heap add_note_tool)
            ["ticket_id"; "note"] 3 eq_refl _ _).
  - intros allowed Hc. simpl in Hc. discriminate Hc.
  - lia.
Defined.

(** C3, counterexample.  For a callable that cannot be introspected, a
    failed introspection writes nothing to the cache slot: the second
    resolver call on the same registration calls [inspect.signature]
    again, so it has been called twice, and no call returns a parameter
    list. *)
Lemma failed_introspection_is_repeated :
  let h := fresh_heap builtin_tool in
  let e := mkExc "ValueError" "no signature found for builtin <built-in function getpid>" in
  signature_calls h = 0 /\
  (resolve_calls 2 h).1 = [Raise e; Raise e] /\
  signature_calls (heap_after 2 h) = 2 /\
  ~ signature_calls (heap_after 2 h) <= 1.
Proof.
  simpl. split_and!; [reflexivity.. |]. vm_compute. lia.
Qed.

(** ** The scenarios of the specification, evaluated *)

Example scenario_extra_key :
  sanitize (PyDict call_with_extra_key) ["ticket_id"; "note"]
  = (PyDict [("ticket_id", PyInt 42); ("note", PyStr "hi")], ["toolCallId"]).
Proof. vm_compute. reflexivity. Qed.

Example scenario_not_a_mapping :
  sanitize (PyStr "not-a-mapping") ["x"] = (PyStr "not-a-mapping", []).
Proof. reflexivity. Qed.

Example scenario_empty_allowlist :
  sanitize (PyDict [("a", PyInt 1)]) [] = (PyDict [], ["a"]).
Proof. vm_compute. reflexivity. Qed.

Example scenario_dropped_keys_sorted :
  removed [("zeta", PyNone); ("id", PyInt 1); ("alpha", PyNone); ("Beta", PyNone)]
    ["id"]
  = ["Beta"; "alpha"; "zeta"].
Proof. vm_compute. reflexivity. Qed.

Example scenario_domain_error :
  _run_with_arg_sanitizer failing_run (PyDict call_with_extra_key)
    (fresh_heap add_note_tool)
  = (Raise (mkExc "ZabbixAPIError" "Session terminated, re-login, please."),
     mkHeap (mkTool add_note_fn (Some "zabbix_add_note")
               (Some ["ticket_id"; "note"]))
       [mkLog "zammad_mcp.arg_sanitizer" "DEBUG"
          "Dropped unsupported fields for tool '%s': %s"
          "zabbix_add_note" ["toolCallId"]]
       1).
Proof. vm_compute. reflexivity. Qed.

(** ** A wrapper around the wrapper *)

(** Should the module body run a second time as a second module instance
    (the same file reached under another module name), line 24 captures
    the wrapper that is already installed.  A call then goes through both
    wrappers and behaves as with one: the inner wrapper finds the
    allowlist cached, has nothing to drop and logs nothing. *)
Lemma nested_wrapper_same_behaviour
    (_original_run : PyVal -> M PyVal) (arguments : PyVal) (h : Heap) :
  payload_wf arguments ->
  _run_with_arg_sanitizer (_run_with_arg_sanitizer _original_run) arguments h
  = _run_with_arg_sanitizer _original_run arguments h.
Proof.
  intros Hwf.
  destruct (isinstance_dict arguments) eqn:Hshape.
  - destruct arguments as [| | | | |items]; try discriminate. simpl in Hwf.
    destruct (resolve_allowed h) as [[allowed|e] h1] eqn:Hr.
    + rewrite !(run_dict_ok _ _ _ _ _ Hr).
      apply resolve_ok_heap in Hr as (Hc & _).
      assert (_allowed_parameter_names
                (self (with_diagnostic items allowed h1)) = Some allowed)
        as Hc' by (unfold with_diagnostic; by destruct (negb _)).
      rewrite (run_dict_ok _ _ _ _ _ (resolve_cached _ _ Hc')).
      rewrite sanitized_sanitized by done.
      f_equal. unfold with_diagnostic at 1.
      by rewrite sanitized_sanitized, Nat.eqb_refl.
    + by rewrite !(run_dict_raise _ _ _ _ _ Hr).
  - by rewrite !run_not_dict.
Qed.

(** ** Installing a second time *)




(** * Further properties of the patch *)

(** ** Kept and dropped keys together *)

Lemma removed_Permutation_filter {V} (items : list (string * V))
    (allowed : list string) :
  Dict.dict_wf items ->
  removed items allowed ≡ₚ filter (fun k => k ∉ allowed) (Dict.keys items).
Proof.
  intros Hwf. apply NoDup_Permutation.
  - apply removed_NoDup.
  - by apply NoDup_filter.
  - intros k. rewrite elem_of_removed, list_elem_of_filter. tauto.
Qed.

(** X1.  Lines 47-50: on a dict every key of the payload is either
    forwarded or reported as dropped, never both and never neither: the
    keys of the sanitized dict together with the dropped keys are a
    rearrangement of the payload's keys, so the two lengths add up to
    [len(arguments)]. *)
Theorem every_key_kept_or_reported
    (items : list (string * PyVal)) (allowed : list string)
    (Hwf : Dict.dict_wf items) :
  Dict.keys items
  ≡ₚ Dict.keys (sanitized items allowed) ++ removed items allowed /\
  Dict.len (sanitized items allowed) + length (removed items allowed)
  = Dict.len items /\
  (forall k, k ∈ Dict.keys (sanitized items allowed) ->
             k ∉ removed items allowed).
Proof.
  assert (Dict.keys items
          ≡ₚ Dict.keys (sanitized items allowed) ++ removed items allowed)
    as Hperm.
  { rewrite sanitized_filter, keys_filter by done.
    rewrite removed_Permutation_filter by done.
    symmetry. apply filter_app_complement. }
  split_and!; [done | |].
  - apply Permutation_length in Hperm.
    rewrite length_app in Hperm. unfold Dict.len, Dict.keys in *.
    rewrite !length_fmap in Hperm. lia.
  - intros k. rewrite sanitized_filter, keys_filter by done.
    rewrite list_elem_of_filter, elem_of_removed. tauto.
Qed.

Lemma every_key_kept_or_reported_witness :
  Dict.dict_wf call_with_extra_key /\
  Dict.keys call_with_extra_key
  ≡ₚ Dict.keys (sanitized call_with_extra_key ["note"])
     ++ removed call_with_extra_key ["note"] /\
  Dict.len (sanitized call_with_extra_key ["note"])
  + length (removed call_with_extra_key ["note"])
  = Dict.len call_with_extra_key /\
  (forall k, k ∈ Dict.keys (sanitized call_with_extra_key ["note"]) ->
             k ∉ removed call_with_extra_key ["note"]).
Proof.
  assert (Dict.dict_wf call_with_extra_key) as Hwf by solve_wf.
  split; [exact Hwf |].
  exact (every_key_kept_or_reported call_with_extra_key ["note"] Hwf).
Defined.

(** X2.  Line 50: the list handed to the logger is determined by the set
    of payload keys and the set of allowed names alone.  Any list without
    repetition, in ascending order, whose members are the payload keys
    outside the allowlist is that list; the iteration order of the Python
    set and the order of the payload's items play no part. *)
Theorem removed_is_the_sorted_dropped_set
    (items : list (string * PyVal)) (allowed l : list string)
    (Hsorted : StronglySorted String.le l)
    (Hnodup : NoDup l)
    (Hmem : forall k, k ∈ l <-> k ∈ Dict.keys items /\ k ∉ allowed) :
  removed items allowed = l.
Proof.
  apply (StronglySorted_unique String.le).
  - apply removed_sorted.
  - done.
  - apply NoDup_Permutation; [apply removed_NoDup | done |].
    intros k. by rewrite elem_of_removed, Hmem.
Qed.

Lemma removed_is_the_sorted_dropped_set_witness :
  removed [("zeta", PyNone); ("id", PyInt 1); ("alpha", PyNone)] ["id"]
  = ["alpha"; "zeta"].
Proof.
  apply removed_is_the_sorted_dropped_set.
  - repeat constructor.
  - apply (bool_decide_unpack _). vm_compute. exact I.
  - intros k. rewrite <- elem_of_removed.
    assert (removed [("zeta", PyNone); ("id", PyInt 1); ("alpha", PyNone)]
              ["id"] = ["alpha"; "zeta"]) as -> by (vm_compute; reflexivity).
    reflexivity.
Defined.

(** ** The allowlist as a set of names *)

Lemma sanitized_from_ext {V} (items : list (string * V)) :
  forall (acc : list (string * V)) (allowed1 allowed2 : list string),
    (forall k, k ∈ allowed1 <-> k ∈ allowed2) ->
    sanitized_from acc items allowed1 = sanitized_from acc items allowed2.
Proof.
  unfold sanitized_from.
  induction items as [|[k v] items IH]; intros acc a1 a2 Heq; [done |].
  simpl. rewrite !tuple_contains_decide.
  rewrite (bool_decide_ext _ _ (Heq k)). by apply IH.
Qed.

(** X3.  Lines 44-50 use the tuple of parameter names only through
    [k in allowed] and [set(allowed)]: two allowlists with the same
    members, in whatever order and with whatever repetitions, give the
    same sanitized dict and the same dropped keys, for any dict. *)
Theorem allowlist_order_is_irrelevant
    (items : list (string * PyVal)) (allowed1 allowed2 : list string)
    (Hsame : forall k, k ∈ allowed1 <-> k ∈ allowed2) :
  sanitized items allowed1 = sanitized items allowed2 /\
  removed items allowed1 = removed items allowed2.
Proof.
  split.
  - by apply sanitized_from_ext.
  - unfold removed.
    assert ((list_to_set allowed1 : gset string) = list_to_set allowed2)
      as -> ; [|done].
    apply set_eq. intros k. by rewrite !elem_of_list_to_set.
Qed.

Lemma allowlist_order_is_irrelevant_witness :
  sanitized call_with_extra_key ["ticket_id"; "note"]
  = sanitized call_with_extra_key ["note"; "ticket_id"; "note"] /\
  removed call_with_extra_key ["ticket_id"; "note"]
  = removed call_with_extra_key ["note"; "ticket_id"; "note"].
Proof.
  apply allowlist_order_is_irrelevant.
  intros k. rewrite !elem_of_cons, !elem_of_nil. tauto.
Defined.

(** X4.  Line 47 applied with one allowlist and then with another keeps
    the items whose key is in both, whichever allowlist comes first; the
    result is the one pass with the names the two have in common. *)
Theorem sanitized_twice_is_intersection
    (items : list (string * PyVal)) (allowed1 allowed2 : list string)
    (Hwf : Dict.dict_wf items) :
  sanitized (sanitized items allowed1) allowed2
  = sanitized items (filter (fun k => k ∈ allowed2) allowed1) /\
  sanitized (sanitized items allowed1) allowed2
  = sanitized (sanitized items allowed2) allowed1.
Proof.
  pose proof (sanitized_wf items allowed1 Hwf) as Hwf1.
  pose proof (sanitized_wf items allowed2 Hwf) as Hwf2.
  rewrite (sanitized_filter (sanitized items allowed1)) by done.
  rewrite (sanitized_filter (sanitized items allowed2)) by done.
  rewrite !sanitized_filter by done.
  rewrite !list_filter_filter. split; apply list_filter_iff; intros [k v];
    simpl; rewrite ?list_elem_of_filter; tauto.
Qed.

Lemma sanitized_twice_is_intersection_witness :
  Dict.dict_wf call_with_extra_key /\
  sanitized (sanitized call_with_extra_key ["ticket_id"; "note"])
    ["note"; "toolCallId"]
  = sanitized call_with_extra_key
      (filter (fun k => k ∈ ["note"; "toolCallId"]) ["ticket_id"; "note"]) /\
  sanitized (sanitized call_with_extra_key ["ticket_id"; "note"])
    ["note"; "toolCallId"]
  = sanitized (sanitized call_with_extra_key ["note"; "toolCallId"])
      ["ticket_id"; "note"].
Proof.
  assert (Dict.dict_wf call_with_extra_key) as Hwf by solve_wf.
  split; [exact Hwf |].
  exact (sanitized_twice_is_intersection call_with_extra_key
           ["ticket_id"; "note"] ["note"; "toolCallId"] Hwf).
Defined.

(** ** Calls that need no filtering, and calls on a written cache slot *)

Lemma sanitized_all_allowed {V} (items : list (string * V))
    (allowed : list string) :
  Dict.dict_wf items ->
  (forall k, k ∈ Dict.keys items -> k ∈ allowed) ->
  sanitized items allowed = items.
Proof.
  intros Hwf Hall. rewrite sanitized_filter by done. clear Hwf.
  unfold Dict.keys in Hall.
  induction items as [|[k v] items IH]; [done |].
  rewrite filter_cons_True by (simpl; apply Hall; left).
  f_equal. apply IH. intros k' Hk'. apply Hall. by right.
Qed.

(** X5.  Lines 47-54: when every key of a dict payload is a parameter
    name, the wrapper hands the original entry point a dict equal to the
    payload, item for item and in the same order, and logs nothing: the
    heap at the entry is the one the resolver left. *)
Theorem known_keys_are_forwarded_intact
    (_original_run : PyVal -> M PyVal) (items : list (string * PyVal))
    (allowed : list string) (h h1 : Heap)
    (Hwf : Dict.dict_wf items)
    (Hres : resolve_allowed h = (Ok allowed, h1))
    (Hknown : forall k, k ∈ Dict.keys items -> k ∈ allowed) :
  _run_with_arg_sanitizer _original_run (PyDict items) h
  = _original_run (PyDict items) h1 /\
  log h1 = log h.
Proof.
  rewrite (run_dict_ok _ _ _ _ _ Hres).
  rewrite (sanitized_all_allowed items allowed Hwf Hknown).
  unfold with_diagnostic.
  rewrite (sanitized_all_allowed items allowed Hwf Hknown), Nat.eqb_refl.
  split; [done |]. by apply resolve_ok_heap in Hres as (_ & _ & _ & ?).
Qed.

Lemma known_keys_are_forwarded_intact_witness :
  let items := [("note", PyStr "hi"); ("ticket_id", PyInt 42)] in
  let h1 := mkHeap (mkTool add_note_fn (Some "zabbix_add_note")
                      (Some ["ticket_id"; "note"])) [] 1 in
  _run_with_arg_sanitizer echo_run (PyDict items) (fresh_heap add_note_tool)
  = echo_run (PyDict items) h1 /\
  log h1 = log (fresh_heap add_note_tool).
Proof.
  apply (known_keys_are_forwarded_intact echo_run
           [("note", PyStr "hi"); ("ticket_id", PyInt 42)]
           ["ticket_id"; "note"]).
  - solve_wf.
  - reflexivity.
  - intros k. unfold Dict.keys. simpl.
    rewrite !elem_of_cons, !elem_of_nil. tauto.
Defined.

(** X6.  Lines 42-46: once the cache slot is written the callable is not
    consulted again.  A dict call on such a registration filters with the
    cached names, calls [inspect.signature] not at all and leaves the tool
    as it is, whatever [inspect.signature] would return or raise for the
    callable now. *)
Theorem written_cache_is_trusted
    (_original_run : PyVal -> M PyVal) (items : list (string * PyVal))
    (allowed : list string) (h : Heap)
    (Hcache : _allowed_parameter_names (self h) = Some allowed) :
  exists h_entry,
    _run_with_arg_sanitizer _original_run (PyDict items) h
    = _original_run (PyDict (sanitized items allowed)) h_entry /\
    self h_entry = self h /\
    signature_calls h_entry = signature_calls h.
Proof.
  exists (with_diagnostic items allowed h). split_and!.
  - apply run_dict_ok. by apply resolve_cached.
  - unfold with_diagnostic. by destruct (negb _).
  - unfold with_diagnostic. by destruct (negb _).
Qed.

Lemma written_cache_is_trusted_witness :
  let h := mkHeap (mkTool builtin_fn (Some "zabbix_getpid") (Some ["pid"]))
             [] 0 in
  exists h_entry,
    _run_with_arg_sanitizer echo_run (PyDict [("pid", PyInt 7)]) h
    = echo_run (PyDict (sanitized [("pid", PyInt 7)] ["pid"])) h_entry /\
    self h_entry = self h /\
    signature_calls h_entry = signature_calls h.
Proof.
  exact (written_cache_is_trusted echo_run [("pid", PyInt 7)] ["pid"]
           (mkHeap (mkTool builtin_fn (Some "zabbix_getpid") (Some ["pid"]))
              [] 0) eq_refl).
Defined.

(** ** What a call does to the registration *)

Lemma resolve_frame (h h1 : Heap) (r : Result (list string)) :
  resolve_allowed h = (r, h1) ->
  fn (self h1) = fn (self h) /\ name (self h1) = name (self h) /\
  log h1 = log h /\
  signature_calls h <= signature_calls h1 <= S (signature_calls h).
Proof.
  intros Hr.
  destruct (resolve_cases h)
    as [(a & Hc & E) | [(ps & Hc & Hs & E) | (e & Hc & Hs & E)]];
    rewrite E in Hr; simplify_eq; simpl; split_and!; (done || lia).
Qed.

Lemma with_diagnostic_frame {V} (items : list (string * V))
    (allowed : list string) (h : Heap) :
  self (with_diagnostic items allowed h) = self h /\
  signature_calls (with_diagnostic items allowed h) = signature_calls h /\
  log h `prefix_of` log (with_diagnostic items allowed h) /\
  length (log (with_diagnostic items allowed h)) <= S (length (log h)).
Proof.
  unfold with_diagnostic. destruct (negb _); simpl.
  - split_and!; [done | done | by apply prefix_app_r |].
    rewrite length_app. simpl. lia.
  - split_and!; [done | done | done | lia].
Qed.

(** X7.  Lines 30-54: up to the point where the wrapper hands over to the
    original entry point, or raises, it leaves [self.fn] and [self.name]
    as they were, keeps every log record already emitted and adds at most
    one, and calls [inspect.signature] at most once. *)
Theorem wrapper_footprint (arguments : PyVal) (h : Heap) :
  exists h',
    ((exists forwarded,
         forall _original_run : PyVal -> M PyVal,
           _run_with_arg_sanitizer _original_run arguments h
           = _original_run forwarded h') \/
     (exists e,
         forall _original_run : PyVal -> M PyVal,
           _run_with_arg_sanitizer _original_run arguments h
           = (Raise e, h'))) /\
    fn (self h') = fn (self h) /\
    name (self h') = name (self h) /\
    log h `prefix_of` log h' /\
    length (log h') <= S (length (log h)) /\
    signature_calls h <= signature_calls h' <= S (signature_calls h).
Proof.
  destruct (isinstance_dict arguments) eqn:Hshape; last first.
  { exists h. split_and!; try done; try lia.
    left. exists arguments. intros orig. by apply run_not_dict. }
  destruct arguments as [| | | | |items]; try discriminate.
  destruct (resolve_allowed h) as [[allowed|e] h1] eqn:Hr.
  - exists (with_diagnostic items allowed h1).
    pose proof (resolve_frame _ _ _ Hr) as (Hfn & Hname & Hlog & Hcalls).
    pose proof (with_diagnostic_frame items allowed h1)
      as (Hself & Hcalls' & Hpre & Hlen).
    rewrite Hself, Hcalls'. rewrite Hlog in Hpre, Hlen.
    split_and!; try done; try lia.
    left. eexists. intros orig. by apply run_dict_ok.
  - exists h1.
    pose proof (resolve_frame _ _ _ Hr) as (Hfn & Hname & Hlog & Hcalls).
    rewrite Hlog. split_and!; try done; try lia.
    right. exists e. intros orig. by apply run_dict_raise.
Qed.

(** ** Introspection over a sequence of calls *)

Section call_sequences.
Variable _original_run : PyVal -> M PyVal.
Hypothesis Hframe : forall arguments h0,
  self (_original_run arguments h0).2 = self h0 /\
  signature_calls (_original_run arguments h0).2 = signature_calls h0.

Lemma run_on_written_cache (arguments : PyVal) (h : Heap)
    (allowed : list string) :
  _allowed_parameter_names (self h) = Some allowed ->
  self (_run_with_arg_sanitizer _original_run arguments h).2 = self h /\
  signature_calls (_run_with_arg_sanitizer _original_run arguments h).2
  = signature_calls h.
Proof.
  intros Hc. destruct (isinstance_dict arguments) eqn:Hshape.
  - destruct arguments as [| | | | |items]; try discriminate.
    rewrite (run_dict_ok _ _ _ _ _ (resolve_cached _ _ Hc)).
    pose proof (with_diagnostic_frame items allowed h) as (Hs & Hn & _).
    destruct (Hframe (PyDict (sanitized items allowed))
                (with_diagnostic items allowed h)) as [-> ->]. done.
  - rewrite run_not_dict by done. apply Hframe.
Qed.

Lemma run_calls_on_written_cache (payloads : list PyVal) :
  forall (h : Heap) (allowed : list string),
    _allowed_parameter_names (self h) = Some allowed ->
    self (run_calls _original_run payloads h) = self h /\
    signature_calls (run_calls _original_run payloads h) = signature_calls h.
Proof.
  induction payloads as [|arguments rest IH]; intros h allowed Hc; [done |].
  simpl. destruct (run_on_written_cache arguments h allowed Hc) as [Hs Hn].
  destruct (IH (_run_with_arg_sanitizer _original_run arguments h).2 allowed)
    as [-> ->]; [by rewrite Hs | done].
Qed.

Lemma run_calls_on_empty_cache (parameters : list string)
    (payloads : list PyVal) :
  forall h : Heap,
    fn_signature (fn (self h)) = inr parameters ->
    _allowed_parameter_names (self h) = None ->
    signature_calls (run_calls _original_run payloads h)
    = signature_calls h + (if existsb isinstance_dict payloads then 1 else 0)
    /\
    (existsb isinstance_dict payloads = true ->
     _allowed_parameter_names (self (run_calls _original_run payloads h))
     = Some parameters).
Proof.
  induction payloads as [|arguments rest IH]; intros h Hsig Hc.
  { simpl. split; [lia | done]. }
  simpl run_calls. simpl existsb.
  destruct (isinstance_dict arguments) eqn:Hshape; simpl orb.
  - destruct arguments as [| | | | |items]; try discriminate.
    rewrite (run_dict_ok _ _ _ _ _ (resolve_fresh_ok _ _ Hc Hsig)).
    set (h1 := mkHeap (mkTool (fn (self h)) (name (self h))
                         (Some parameters)) (log h) (S (signature_calls h))).
    pose proof (with_diagnostic_frame items parameters h1) as (Hs & Hn & _).
    destruct (Hframe (PyDict (sanitized items parameters))
                (with_diagnostic items parameters h1)) as [Hs' Hn'].
    rewrite Hs in Hs'. rewrite Hn in Hn'.
    assert (_allowed_parameter_names
              (self (_original_run (PyDict (sanitized items parameters))
                       (with_diagnostic items parameters h1)).2)
            = Some parameters) as Hc2 by (by rewrite Hs').
    destruct (run_calls_on_written_cache rest _ parameters Hc2) as [Hs2 Hn2].
    rewrite Hs2, Hn2, Hs', Hn'. simpl. split; [lia | done].
  - rewrite run_not_dict by done.
    destruct (Hframe arguments h) as [Hs Hn].
    destruct (IH (_original_run arguments h).2) as [Hcount Hslot];
      [by rewrite Hs.. |].
    rewrite Hn in Hcount. by split.
Qed.

End call_sequences.

(** X8.  Lines 38-46 over any sequence of calls on one registration whose
    callable can be introspected, with an original entry point that leaves
    the tool and the introspection count alone: [inspect.signature] is
    called once in all if the cache slot starts empty and some payload is
    a dict, and never otherwise; after a dict payload the slot holds the
    parameter names. *)
Theorem one_introspection_per_registration
    (_original_run : PyVal -> M PyVal) (parameters : list string)
    (Hframe : forall arguments h0,
        self (_original_run arguments h0).2 = self h0 /\
        signature_calls (_original_run arguments h0).2 = signature_calls h0)
    (payloads : list PyVal) (h : Heap)
    (Hsig : fn_signature (fn (self h)) = inr parameters)
    (Hcons : cache_consistent h) :
  signature_calls (run_calls _original_run payloads h)
  = signature_calls h
    + (if _allowed_parameter_names (self h) is Some _ then 0
       else if existsb isinstance_dict payloads then 1 else 0) /\
  (existsb isinstance_dict payloads = true ->
   _allowed_parameter_names (self (run_calls _original_run payloads h))
   = Some parameters).
Proof.
  destruct (_allowed_parameter_names (self h)) as [allowed|] eqn:Hc.
  - assert (allowed = parameters) as ->
      by (specialize (Hcons _ Hc); congruence).
    destruct (run_calls_on_written_cache _ Hframe payloads h parameters Hc)
      as [-> ->].
    split; [lia | done].
  - by apply run_calls_on_empty_cache.
Qed.

Lemma one_introspection_per_registration_witness :
  let payloads := [PyStr "ping"; PyDict call_with_extra_key; PyNone;
                   PyDict [("note", PyStr "again")]] in
  signature_calls (run_calls echo_run payloads (fresh_heap add_note_tool))
  = 1 /\
  _allowed_parameter_names
    (self (run_calls echo_run payloads (fresh_heap add_note_tool)))
  = Some ["ticket_id"; "note"].
Proof.
  destruct (one_introspection_per_registration echo_run
              ["ticket_id"; "note"] (fun _ _ => conj eq_refl eq_refl)
              [PyStr "ping"; PyDict call_with_extra_key; PyNone;
               PyDict [("note", PyStr "again")]]
              (fresh_heap add_note_tool) eq_refl
              (cache_consistent_fresh (fresh_heap add_note_tool) eq_refl))
    as [Hcount Hslot].
  split; [exact Hcount | exact (Hslot eq_refl)].
Defined.

(** ** Installing: failures and further imports *)

(** X9.  Lines 16-27: importing the patch raises exactly when the module
    has not been imported before and either [FunctionTool] cannot be
    imported from fastmcp or the class has no [run]; what it raises is a
    [RuntimeError].  In every other case the import succeeds. *)
Theorem import_fails_only_with_RuntimeError (modname : string) (st : Interp) :
  ((exists e, import_module modname st = Raise e) <->
   ((modname ∉ sys_modules st) /\
    (fastmcp_available st = false \/ FunctionTool_run st = None))) /\
  (forall e, import_module modname st = Raise e ->
             exc_type e = "RuntimeError").
Proof.
  unfold import_module, module_body.
  destruct (decide (modname ∈ sys_modules st)) as [Hin|Hnin].
  - split; [|done]. split; [by intros [e ?] | by intros [? _]].
  - destruct (fastmcp_available st); simpl.
    + destruct (FunctionTool_run st) as [original|]; simpl.
      * split; [|done]. split; [by intros [e ?] |].
        intros [_ [?|?]]; done.
      * split; [|by intros e [= <-]].
        split; [intros _; split; [done | by right] | eauto].
    + split; [|by intros e [= <-]].
      split; [intros _; split; [done | by left] | eauto].
Qed.

(** X10.  Lines 24 and 58 with Python's import rule: after the patch has
    been installed by a first import, one more import, of the same module
    name or of the same file under another module name, leaves every call
    of the tool as it was.  Under another name the body runs again and the
    new wrapper captures the installed one; the two in a row behave as
    one. *)
Theorem further_import_keeps_behaviour
    (name1 name2 : string) (st st1 st2 : Interp)
    (framework_run : PyVal -> M PyVal) (arguments : PyVal) (h : Heap)
    (Hnew : name1 ∉ sys_modules st)
    (Hfirst : import_module name1 st = Ok st1)
    (Hsecond : import_module name2 st1 = Ok st2)
    (Hwf : payload_wf arguments) :
  tool_run framework_run st2 arguments h
  = tool_run framework_run st1 arguments h.
Proof.
  unfold import_module in Hfirst. rewrite decide_False in Hfirst by done.
  unfold module_body in Hfirst.
  destruct (fastmcp_available st); simpl in Hfirst; [|done].
  destruct (FunctionTool_run st) as [original|]; [|done].
  injection Hfirst as <-.
  unfold import_module in Hsecond. simpl in Hsecond.
  destruct (decide (name2 ∈ {[name1]} ∪ sys_modules st)).
  - by injection Hsecond as <-.
  - injection Hsecond as <-. unfold tool_run. simpl.
    by apply nested_wrapper_same_behaviour.
Qed.

Lemma further_import_keeps_behaviour_witness :
  let st1 := mkInterp {["src.helpers.fastmcp_patch"]} true
               (Some (ArgSanitizer FrameworkRun)) in
  let st2 := mkInterp {["helpers.fastmcp_patch"; "src.helpers.fastmcp_patch"]}
               true (Some (ArgSanitizer (ArgSanitizer FrameworkRun))) in
  import_module "src.helpers.fastmcp_patch" pristine = Ok st1 /\
  import_module "helpers.fastmcp_patch" st1 = Ok st2 /\
  tool_run echo_run st2 (PyDict call_with_extra_key)
    (fresh_heap add_note_tool)
  = tool_run echo_run st1 (PyDict call_with_extra_key)
      (fresh_heap add_note_tool).
Proof.
  set (st1 := mkInterp {["src.helpers.fastmcp_patch"]} true
                (Some (ArgSanitizer FrameworkRun))).
  set (st2 := mkInterp {["helpers.fastmcp_patch"; "src.helpers.fastmcp_patch"]}
                true (Some (ArgSanitizer (ArgSanitizer FrameworkRun)))).
  assert (import_module "src.helpers.fastmcp_patch" pristine = Ok st1) as H1.
  { unfold import_module, pristine. rewrite decide_False by set_solver.
    simpl. unfold st1. by rewrite (right_id_L ∅ (∪)). }
  assert (import_module "helpers.fastmcp_patch" st1 = Ok st2) as H2.
  { unfold import_module, st1. simpl.
    rewrite decide_False; [done |].
    rewrite elem_of_singleton. discriminate. }
  split; [exact H1 |]. split; [exact H2 |].
  apply (further_import_keeps_behaviour "src.helpers.fastmcp_patch"
           "helpers.fastmcp_patch" pristine st1 st2); [| done | done |].
  - unfold pristine. simpl. set_solver.
  - solve_wf.
Defined.

(** X11.  Lines 24 and 30-54: however many wrappers are stacked on the
    framework's [run], a call behaves as with one wrapper: the outermost
    one filters and logs, each inner one finds the allowlist cached and
    nothing left to drop. *)
Theorem stacked_wrappers_behave_as_one
    (framework_run : PyVal -> M PyVal) (impl : RunImpl)
    (arguments : PyVal) (h : Heap)
    (Hwf : payload_wf arguments) :
  call_run framework_run (ArgSanitizer impl) arguments h
  = _run_with_arg_sanitizer framework_run arguments h.
Proof.
  induction impl as [|inner IH]; [done |].
  rewrite <- IH. simpl.
  by apply nested_wrapper_same_behaviour.
Qed.

Lemma stacked_wrappers_behave_as_one_witness :
  call_run failing_run
    (ArgSanitizer (ArgSanitizer (ArgSanitizer FrameworkRun)))
    (PyDict call_with_extra_key) (fresh_heap add_note_tool)
  = _run_with_arg_sanitizer failing_run (PyDict call_with_extra_key)
      (fresh_heap add_note_tool).
Proof.
  apply stacked_wrappers_behave_as_one. solve_wf.
Defined.

(** ** What the framework receives *)

(** X12.  Lines 24-58 end to end: once the patch is installed over the
    framework's [run], a dict payload sent to a tool whose callable can be
    introspected reaches the framework as a dict whose keys are all
    parameter names of the callable, with the items of the payload that
    carry such a key and no other item. *)
Theorem framework_receives_only_parameters
    (modname : string) (st st1 : Interp)
    (framework_run : PyVal -> M PyVal)
    (items : list (string * PyVal)) (parameters : list string) (h : Heap)
    (Hnew : modname ∉ sys_modules st)
    (Hunpatched : FunctionTool_run st = Some FrameworkRun)
    (Himport : import_module modname st = Ok st1)
    (Hsig : fn_signature (fn (self h)) = inr parameters)
    (Hcons : cache_consistent h)
    (Hwf : Dict.dict_wf items) :
  exists s h_entry,
    tool_run framework_run st1 (PyDict items) h
    = framework_run (PyDict s) h_entry /\
    (forall k, k ∈ Dict.keys s -> k ∈ parameters) /\
    (forall k v, (k, v) ∈ s <-> (k, v) ∈ items /\ k ∈ parameters).
Proof.
  unfold import_module in Himport. rewrite decide_False in Himport by done.
  unfold module_body in Himport. rewrite Hunpatched in Himport.
  destruct (fastmcp_available st); simpl in Himport; [|done].
  injection Himport as <-. unfold tool_run. simpl.
  assert (exists h1, resolve_allowed h = (Ok parameters, h1)) as [h1 Hres].
  { destruct (_allowed_parameter_names (self h)) as [allowed|] eqn:Hc.
    - assert (allowed = parameters) as ->
        by (specialize (Hcons _ Hc); congruence).
      eexists. by apply resolve_cached.
    - eexists. by apply resolve_fresh_ok. }
  exists (sanitized items parameters), (with_diagnostic items parameters h1).
  split_and!.
  - by apply run_dict_ok.
  - intros k. rewrite sanitized_filter, keys_filter by done.
    rewrite list_elem_of_filter. tauto.
  - intros k v. rewrite sanitized_filter by done.
    rewrite list_elem_of_filter. simpl. tauto.
Qed.

Lemma framework_receives_only_parameters_witness :
  exists s h_entry,
    tool_run echo_run
      (mkInterp {["src.helpers.fastmcp_patch"]} true
         (Some (ArgSanitizer FrameworkRun)))
      (PyDict call_with_extra_key) (fresh_heap add_note_tool)
    = echo_run (PyDict s) h_entry /\
    (forall k, k ∈ Dict.keys s -> k ∈ ["ticket_id"; "note"]) /\
    (forall k v, (k, v) ∈ s
                 <-> (k, v) ∈ call_with_extra_key /\ k ∈ ["ticket_id"; "note"]).
Proof.
  apply (framework_receives_only_parameters "src.helpers.fastmcp_patch"
           pristine).
  - unfold pristine. simpl. set_solver.
  - reflexivity.
  - unfold import_module, pristine. rewrite decide_False by set_solver.
    simpl. by rewrite (right_id_L ∅ (∪)).
  - reflexivity.
  - by apply cache_consistent_fresh.
  - solve_wf.
Defined.

(** ** The name in the diagnostic *)

(** X13.  Line 51: when a key is dropped, the record that is logged last
    names the tool by its [name] attribute; a tool without one is named by
    the [__name__] of its function, and when that is missing too by
    ["<unknown>"].  The lookup of the name raises in none of the three
    cases. *)
Theorem diagnostic_name_falls_back
    (_original_run : PyVal -> M PyVal) (items : list (string * PyVal))
    (allowed : list string) (h h1 : Heap)
    (Hwf : Dict.dict_wf items)
    (Hres : resolve_allowed h = (Ok allowed, h1))
    (Hdrop : removed items allowed <> []) :
  exists h_entry,
    _run_with_arg_sanitizer _original_run (PyDict items) h
    = _original_run (PyDict (sanitized items allowed)) h_entry /\
    log_tool_name <$> last (log h_entry)
    = Some match name (self h), fn_name (fn (self h)) with
           | Some n, _ => n
           | None, Some f => f
           | None, None => "<unknown>"
           end.
Proof.
  exists (with_diagnostic items allowed h1). split; [by apply run_dict_ok |].
  apply resolve_ok_heap in Hres as (_ & Hfn & Hname & _).
  unfold with_diagnostic.
  apply len_differs_iff_removed in Hdrop; [|done]. rewrite Hdrop. simpl.
  rewrite last_snoc. simpl. unfold tool_name. rewrite Hfn, Hname.
  by destruct (name (self h)), (fn_name (fn (self h))).
Qed.

Lemma diagnostic_name_falls_back_witness :
  let h := mkHeap (mkTool (mkCallable (Some "add_note")
                             (inr ["ticket_id"; "note"])) None None) [] 0 in
  exists h_entry,
    _run_with_arg_sanitizer echo_run (PyDict call_with_extra_key) h
    = echo_run (PyDict (sanitized call_with_extra_key ["ticket_id"; "note"]))
        h_entry /\
    log_tool_name <$> last (log h_entry) = Some "add_note".
Proof.
  refine (diagnostic_name_falls_back echo_run call_with_extra_key
            ["ticket_id"; "note"]
            (mkHeap (mkTool (mkCallable (Some "add_note")
                               (inr ["ticket_id"; "note"])) None None) [] 0)
            _ _ eq_refl _).
  - solve_wf.
  - vm_compute. discriminate.
Defined.

(** ** A callable that cannot be introspected, over a sequence of calls *)

(** X14.  Lines 42-44 over any sequence of calls on a registration whose
    cache slot is empty and whose callable cannot be introspected, with an
    original entry point that leaves the tool and the introspection count
    alone: every dict payload costs one more call of [inspect.signature],
    the payloads that are not dicts cost none, and the cache slot is still
    empty at the end. *)
Theorem failed_introspection_is_never_cached
    (_original_run : PyVal -> M PyVal) (e : PyExc)
    (Hframe : forall arguments h0,
        self (_original_run arguments h0).2 = self h0 /\
        signature_calls (_original_run arguments h0).2 = signature_calls h0)
    (payloads : list PyVal) (h : Heap)
    (Hopaque : fn_signature (fn (self h)) = inl e)
    (Hfresh : _allowed_parameter_names (self h) = None) :
  signature_calls (run_calls _original_run payloads h)
  = signature_calls h + length (List.filter isinstance_dict payloads) /\
  _allowed_parameter_names (self (run_calls _original_run payloads h)) = None.
Proof.
  revert h Hopaque Hfresh.
  induction payloads as [|arguments rest IH]; intros h Hopaque Hfresh.
  { simpl. split; [lia | done]. }
  simpl. destruct (isinstance_dict arguments) eqn:Hshape.
  - destruct arguments as [| | | | |items]; try discriminate.
    rewrite (run_dict_raise _ _ _ _ _ (resolve_fresh_raise _ _ Hfresh Hopaque)).
    cbn [snd].
    destruct (IH (mkHeap (self h) (log h) (S (signature_calls h))))
      as [-> ->]; [done.. |].
    simpl. split; [lia | done].
  - rewrite run_not_dict by done.
    destruct (Hframe arguments h) as [Hs Hn].
    destruct (IH (_original_run arguments h).2) as [-> ->];
      [by rewrite Hs.. |].
    rewrite Hn. by split.
Qed.

Lemma failed_introspection_is_never_cached_witness :
  let payloads := [PyDict []; PyStr "ping"; PyDict call_with_extra_key] in
  signature_calls (run_calls echo_run payloads (fresh_heap builtin_tool)) = 2 /\
  _allowed_parameter_names
    (self (run_calls echo_run payloads (fresh_heap builtin_tool))) = None.
Proof.
  exact (failed_introspection_is_never_cached echo_run
           (mkExc "ValueError" "no signature found for builtin <built-in function getpid>")
           (fun _ _ => conj eq_refl eq_refl)
           [PyDict []; PyStr "ping"; PyDict call_with_extra_key]
           (fresh_heap builtin_tool) eq_refl eq_refl).
Defined.
